(** * OmBlog: the sync-and-push helper ([run.py])

    A shallow embedding of the one-click publishing script: the path checks,
    the command runner, the commit counter and the publish pipeline, followed
    by the properties of its specification.

    Python text ([str]) is a sequence of Unicode code points; the script's
    effects (printing, child processes, the counter file, pauses) are threaded
    through a state-and-exception monad whose state is the outside world plus
    a chronological trace of what the script did. *)

From Stdlib Require Import List ZArith NArith Bool Ascii String Lia.
From Stdlib Require Decimal DecimalPos.
Import ListNotations.

Local Open Scope N_scope.

(** ** Text *)

(** A code point, and Python's [str]. *)
Definition char : Type := N.
Definition str : Type := list char.

(** An ASCII literal of the source as text. *)
Definition py (s : string) : str := map N_of_ascii (list_ascii_of_string s).

Definition str_eq_dec : forall a b : str, {a = b} + {a <> b} := list_eq_dec N.eq_dec.
Definition str_eqb (a b : str) : bool := if str_eq_dec a b then true else false.

(** [sep.join(parts)]. *)
Fixpoint join (sep : str) (parts : list str) : str :=
  match parts with
  | [] => []
  | [p] => p
  | p :: rest => p ++ sep ++ join sep rest
  end.

Section Unicode.

(** The interpreter's Unicode database, for the code points above ASCII:
    the White_Space test behind [str.strip] and the decimal-digit value that
    [int] reads ([-1] when the code point is no decimal digit).  The tables
    belong to the interpreter, not to the script; every result below holds
    for all of them. *)
Variable _PyUnicode_IsWhitespace : char -> bool.
Variable _PyUnicode_ToDecimalDigit : char -> Z.

(** [str.isspace] on one code point: below 128 the fixed ASCII table
    (TAB, LF, VT, FF, CR, FS, GS, RS, US and the space), above it the
    database. *)
Definition Py_UNICODE_ISSPACE (c : char) : bool :=
  if c <? 128
  then ((9 <=? c) && (c <=? 13)) || ((28 <=? c) && (c <=? 32))
  else _PyUnicode_IsWhitespace c.

Fixpoint lstrip (s : str) : str :=
  match s with
  | c :: t => if Py_UNICODE_ISSPACE c then lstrip t else s
  | [] => []
  end.

Definition rstrip (s : str) : str := rev (lstrip (rev s)).

(** [s.strip()]: whitespace removed at both ends. *)
Definition strip (s : str) : str := rstrip (lstrip s).

(** *** [int(s)] for a text argument *)

(** The C-locale whitespace of the integer parser: space, TAB to CR. *)
Definition Py_ISSPACE (c : char) : bool := (c =? 32) || ((9 <=? c) && (c <=? 13)).

Definition digit_value (c : char) : option Z :=
  if (48 <=? c) && (c <=? 57) then Some (Z.of_N (c - 48)) else None.

(** Before parsing, [int] maps the text to ASCII: code points below 127 are
    kept, other whitespace becomes a space, other decimal digits become
    ['0'..'9'], and anything else becomes ['?'], which no number contains. *)
Definition to_ascii (c : char) : char :=
  if c <? 127 then c
  else if Py_UNICODE_ISSPACE c then 32
  else let d := _PyUnicode_ToDecimalDigit c in
       if (d <? 0)%Z then 63 else 48 + Z.to_N d.

Fixpoint skip_spaces (s : str) : str :=
  match s with
  | c :: t => if Py_ISSPACE c then skip_spaces t else s
  | [] => []
  end.

(** The digit loop: digits accumulate in base ten, a single underscore may
    sit between two digits, never two in a row and never last.  [prev] is
    the character read just before. *)
Fixpoint scan_digits (prev : char) (acc : Z) (s : str) : option (Z * str) :=
  match s with
  | c :: t =>
      if c =? 95 then (if prev =? 95 then None else scan_digits c acc t)
      else match digit_value c with
           | Some d => scan_digits c (10 * acc + d)%Z t
           | None => if prev =? 95 then None else Some (acc, s)
           end
  | [] => if prev =? 95 then None else Some (acc, s)
  end.

(** Base-ten integer literal: optional blanks, optional sign, digits, optional
    blanks, and nothing else.  [None] is Python's [ValueError].  Integers are
    unbounded, as in Python; the interpreter's adjustable cap on how many
    digits [int] and [str] will convert is a setting of the interpreter and
    is left out. *)
Definition PyLong_FromString (s : str) : option Z :=
  let s1 := skip_spaces s in
  let '(sign, s2) :=
    match s1 with
    | 43 :: t => (1%Z, t)
    | 45 :: t => ((-1)%Z, t)
    | _ => (1%Z, s1)
    end in
  match s2 with
  | c :: _ =>
      match digit_value c with
      | None => None
      | Some _ =>
          match scan_digits 0 0%Z s2 with
          | Some (v, rest) =>
              match skip_spaces rest with
              | [] => Some (sign * v)%Z
              | _ :: _ => None
              end
          | None => None
          end
      end
  | [] => None
  end.

Definition py_int (s : str) : option Z := PyLong_FromString (map to_ascii s).

End Unicode.

(** *** [str(n)] for an integer *)

Fixpoint uint_chars (d : Decimal.uint) : str :=
  match d with
  | Decimal.Nil => []
  | Decimal.D0 d => 48 :: uint_chars d
  | Decimal.D1 d => 49 :: uint_chars d
  | Decimal.D2 d => 50 :: uint_chars d
  | Decimal.D3 d => 51 :: uint_chars d
  | Decimal.D4 d => 52 :: uint_chars d
  | Decimal.D5 d => 53 :: uint_chars d
  | Decimal.D6 d => 54 :: uint_chars d
  | Decimal.D7 d => 55 :: uint_chars d
  | Decimal.D8 d => 56 :: uint_chars d
  | Decimal.D9 d => 57 :: uint_chars d
  end.

(** Decimal text of an integer: no leading zero, a minus sign when negative. *)
Definition py_str (z : Z) : str :=
  match z with
  | Z0 => [48]
  | Zpos p => uint_chars (Pos.to_uint p)
  | Zneg p => 45 :: uint_chars (Pos.to_uint p)
  end.

(** ** The outside world *)

(** What a path names.  Text on disk and on pipes is taken as the text it
    decodes to. *)
Inductive node : Type :=
| Absent
| Dir
| File (content : str).

(** How a child process ended: with a return code and what it wrote on its
    standard output, or not started at all (program missing, working
    directory unusable). *)
Inductive child : Type :=
| Exited (returncode : Z) (output : str)
| NotStarted.

(** The exceptions that can leave [main]. *)
Inductive exn : Type :=
| CalledProcessError (returncode : Z)
| ValueError
| OSError
| SystemExit (msg : str).

(** What the script does, as seen from outside: every call that reads or
    changes the world, with what it was told. *)
Inductive event : Type :=
| Print (text : str)                                    (* print(text) *)
| Exec (argv : list str) (cwd : option str) (r : child) (* subprocess *)
| Sleep (seconds : Z)                                   (* time.sleep *)
| IsDir (path : str) (answer : bool)                    (* Path.is_dir *)
| Exists (path : str) (answer : bool)                   (* Path.exists *)
| ReadText (path content : str)                         (* Path.read_text *)
| WriteText (path content : str)                        (* Path.write_text *)
| Stderr (text : str)                                   (* SystemExit's message *)
| Traceback (e : exn).                                  (* uncaught exception *)

Inductive result (A : Type) : Type :=
| Ok (a : A)
| Raise (e : exn).

Arguments Ok {A} a.
Arguments Raise {A} e.

(** ** Configuration *)

Definition OBS_POSTS : str := py "/Users/omkakkad/Obsidian/Om/posts".
Definition BLOG_ROOT : str := py "/Users/omkakkad/Obsidian/OmBlog".

(** [parent / name] on paths. *)
Definition path_join (parent name : str) : str := parent ++ py "/" ++ name.

Definition DEST_POSTS : str := path_join (path_join BLOG_ROOT (py "content")) (py "posts").
Definition IMAGES_PY : str := path_join BLOG_ROOT (py "images.py").
Definition COUNTER_FN : str := path_join BLOG_ROOT (py ".commit_counter").
Definition PAUSE : Z := 1.

(** The command lines of the pipeline. *)
Definition rsync_cmd : list str :=
  [py "rsync"; py "-av"; py "--delete"; OBS_POSTS ++ py "/"; DEST_POSTS].
Definition images_cmd : list str := [py "python3"; IMAGES_PY].
Definition hugo_cmd : list str :=
  [py "hugo"; py "--gc"; py "--minify"; py "-b"; py "http://localhost"].
Definition git_add_cmd : list str := [py "git"; py "add"; py "."].
Definition git_commit_cmd (msg : str) : list str :=
  [py "git"; py "commit"; py "-m"; msg].
Definition git_branch_cmd : list str :=
  [py "git"; py "rev-parse"; py "--abbrev-ref"; py "HEAD"].
Definition git_push_cmd (branch : str) : list str :=
  [py "git"; py "push"; py "origin"; branch].

(** The texts the script prints. *)
Definition command_line (cmd : list str) : str :=
  [10; 27] ++ py "[96m$ " ++ join (py " ") cmd ++ [27] ++ py "[0m".
Definition commit_message (n : Z) : str := py "Post update " ++ py_str n.
Definition done_line (commit_msg branch : str) : str :=
  [10; 0x2705] ++ py "  Done!  (" ++ commit_msg ++ py " " ++ [0x2192]
    ++ py " pushed to " ++ branch ++ py ")".
Definition failed_line (returncode : Z) : str :=
  [10; 0x274c] ++ py "  Command failed with exit-code " ++ py_str returncode.

Section Script.

(** Everything the external tools own besides the paths the script looks at:
    the notes, the site tree, the repository and its remote. *)
Variable E : Type.

Record world : Type := mkWorld {
  node_at : str -> node;
  beyond : E
}.

(** The tools: a command line and a working directory, run in a world, end
    some way and leave a world.  Nothing is assumed about them. *)
Variable spawn : list str -> option str -> world -> child * world.

Variable _PyUnicode_IsWhitespace : char -> bool.
Variable _PyUnicode_ToDecimalDigit : char -> Z.

Record state : Type := mkState {
  now : world;
  trace : list event        (* oldest first *)
}.

(** *** State and exceptions *)

Definition M (A : Type) : Type := state -> result A * state.

Definition ret {A} (a : A) : M A := fun st => (Ok a, st).
Definition raise {A} (e : exn) : M A := fun st => (Raise e, st).
Definition bind {A B} (m : M A) (k : A -> M B) : M B :=
  fun st =>
    match m st with
    | (Ok a, st') => k a st'
    | (Raise e, st') => (Raise e, st')
    end.

Notation "x <- m ;; k" := (bind m (fun x => k))
  (at level 61, m at next level, right associativity).
Notation "m ;; k" := (bind m (fun _ => k))
  (at level 61, right associativity).

Definition emit (e : event) : M unit :=
  fun st => (Ok tt, mkState (now st) (trace st ++ [e])).

Definition print (text : str) : M unit := emit (Print text).
Definition sleep (seconds : Z) : M unit := emit (Sleep seconds).

Definition is_dir (p : str) : M bool :=
  fun st =>
    let b := match node_at (now st) p with Dir => true | _ => false end in
    (Ok b, mkState (now st) (trace st ++ [IsDir p b])).

Definition exists_ (p : str) : M bool :=
  fun st =>
    let b := match node_at (now st) p with Absent => false | _ => true end in
    (Ok b, mkState (now st) (trace st ++ [Exists p b])).

Definition read_text (p : str) : M str :=
  fun st =>
    match node_at (now st) p with
    | File content => (Ok content, mkState (now st) (trace st ++ [ReadText p content]))
    | _ => (Raise OSError, st)
    end.

Definition put_file (p content : str) (w : world) : world :=
  mkWorld (fun q => if str_eqb q p then File content else node_at w q) (beyond w).

(** Creates the file or replaces its whole content. *)
Definition write_text (p content : str) : M unit :=
  fun st =>
    match node_at (now st) p with
    | Dir => (Raise OSError, st)
    | _ => (Ok tt, mkState (put_file p content (now st))
                           (trace st ++ [WriteText p content]))
    end.

(** A child process, waited for; its output is what [check_output] keeps. *)
Definition subprocess (cmd : list str) (cwd : option str) : M str :=
  fun st =>
    let '(r, w') := spawn cmd cwd (now st) in
    let st' := mkState w' (trace st ++ [Exec cmd cwd r]) in
    match r with
    | Exited rc out =>
        if (rc =? 0)%Z then (Ok out, st') else (Raise (CalledProcessError rc), st')
    | NotStarted => (Raise OSError, st')
    end.

(** [subprocess.run(cmd, cwd=cwd, check=True)] *)
Definition subprocess_run (cmd : list str) (cwd : option str) : M unit :=
  subprocess cmd cwd ;; ret tt.

(** [subprocess.check_output(cmd, cwd=cwd)] *)
Definition check_output (cmd : list str) (cwd : option str) : M str :=
  subprocess cmd cwd.

(** *** Helpers *)

Definition run (cmd : list str) (cwd : option str) : M unit :=
  print (command_line cmd) ;;
  subprocess_run cmd cwd.

(** [int(text.strip() or 0)] *)
Definition parse_counter (text : str) : M Z :=
  match strip _PyUnicode_IsWhitespace text with
  | [] => ret 0%Z
  | s =>
      match py_int _PyUnicode_IsWhitespace _PyUnicode_ToDecimalDigit s with
      | Some n => ret n
      | None => raise ValueError
      end
  end.

Definition next_commit_msg : M str :=
  present <- exists_ COUNTER_FN ;;
  last <- (if present
           then text <- read_text COUNTER_FN ;; parse_counter text
           else ret 0%Z) ;;
  let new := (last + 1)%Z in
  write_text COUNTER_FN (py_str new) ;;
  ret (commit_message new).

(** *** Main work *)

Definition main : M unit :=
  obs <- is_dir OBS_POSTS ;;
  (if negb obs
   then raise (SystemExit (py "Obsidian posts path not found: " ++ OBS_POSTS))
   else ret tt) ;;
  blog <- is_dir BLOG_ROOT ;;
  (if negb blog
   then raise (SystemExit (py "Hugo project path not found: " ++ BLOG_ROOT))
   else ret tt) ;;
  run rsync_cmd None ;;
  sleep PAUSE ;;
  helper <- exists_ IMAGES_PY ;;
  (if helper
   then run images_cmd (Some BLOG_ROOT) ;; sleep PAUSE
   else ret tt) ;;
  run hugo_cmd (Some BLOG_ROOT) ;;
  sleep PAUSE ;;
  run git_add_cmd (Some BLOG_ROOT) ;;
  commit_msg <- next_commit_msg ;;
  run (git_commit_cmd commit_msg) (Some BLOG_ROOT) ;;
  out <- check_output git_branch_cmd (Some BLOG_ROOT) ;;
  let branch := strip _PyUnicode_IsWhitespace out in
  run (git_push_cmd branch) (Some BLOG_ROOT) ;;
  print (done_line commit_msg branch).

(** *** The program: [main] under the top-level handler *)

Record finished : Type := mkFinished {
  exit_status : Z;
  final : state
}.

Definition script (w : world) : finished :=
  match main (mkState w []) with
  | (Ok _, st) => mkFinished 0 st
  | (Raise (CalledProcessError rc), st) =>
      mkFinished 0 (mkState (now st) (trace st ++ [Print (failed_line rc)]))
  | (Raise (SystemExit msg), st) =>
      mkFinished 1 (mkState (now st) (trace st ++ [Stderr msg]))
  | (Raise e, st) =>
      mkFinished 1 (mkState (now st) (trace st ++ [Traceback e]))
  end.

End Script.

Arguments mkWorld {E} node_at beyond.
Arguments node_at {E} w path.
Arguments beyond {E} w.
Arguments mkState {E} now trace.
Arguments now {E} s.
Arguments trace {E} s.
Arguments mkFinished {E} exit_status final.
Arguments exit_status {E} f.
Arguments final {E} f.
Arguments put_file {E} p content w.
Arguments next_commit_msg {E} _ _ st.
Arguments run {E} spawn cmd cwd st.
Arguments main {E} spawn _ _ st.
Arguments script {E} spawn _ _ w.

(** ** Reading a trace *)

Definition child_ok (r : child) : bool :=
  match r with
  | Exited rc _ => (rc =? 0)%Z
  | NotStarted => false
  end.

(** The command lines handed to child processes, in order. *)
Fixpoint commands (t : list event) : list (list str) :=
  match t with
  | [] => []
  | Exec argv _ _ :: t' => argv :: commands t'
  | _ :: t' => commands t'
  end.

(** The calls that change something or start something. *)
Definition acts (e : event) : bool :=
  match e with
  | Exec _ _ _ | WriteText _ _ | Sleep _ => true
  | _ => false
  end.

Definition is_traceback (e : event) : bool :=
  match e with Traceback _ => true | _ => false end.

Definition last_event (t : list event) : option event := hd_error (rev t).

(** After a child process that failed, the script does nothing more to the
    world: no process, no write, no pause. *)
Fixpoint fail_fast (t : list event) : bool :=
  match t with
  | [] => true
  | Exec _ _ r :: t' =>
      if child_ok r then fail_fast t' else forallb (fun e => negb (acts e)) t'
  | _ :: t' => fail_fast t'
  end.

(** What was read from files, in order. *)
Fixpoint reads (t : list event) : list (str * str) :=
  match t with
  | [] => []
  | ReadText p content :: t' => (p, content) :: reads t'
  | _ :: t' => reads t'
  end.

(** What was written to files, in order. *)
Fixpoint writes (t : list event) : list (str * str) :=
  match t with
  | [] => []
  | WriteText p content :: t' => (p, content) :: writes t'
  | _ :: t' => writes t'
  end.

(** ** The counter file and the tools

    What the properties below need to say about the counter file as the
    tools see it.  None of this is part of the script. *)

(** The number a counter path stands for: zero when absent or blank. *)
Definition stored_value (is_whitespace : char -> bool) (to_decimal : char -> Z)
    (n : node) : option Z :=
  match n with
  | Absent => Some 0%Z
  | Dir => None
  | File text =>
      match strip is_whitespace text with
      | [] => Some 0%Z
      | s => py_int is_whitespace to_decimal s
      end
  end.

(** A command that never touches the counter file. *)
Definition leaves_counter {E : Type}
    (spawn : list str -> option str -> world E -> child * world E)
    (argv : list str) : Prop :=
  forall cwd w, node_at (snd (spawn argv cwd w)) COUNTER_FN = node_at w COUNTER_FN.

(** Git, as far as the counter path goes: a successful [git add .] stages
    the path as it is on disk, a successful [git commit] records what is
    staged, asking for the branch and pushing record nothing, and none of
    them changes the file on disk.  [staged_of] and [committed_of] read the
    index and the last commit out of the tools' part of the world. *)
Record git_records {E : Type}
    (spawn : list str -> option str -> world E -> child * world E)
    (staged_of committed_of : E -> node) : Prop := {
  add_stages : forall w out w',
    spawn git_add_cmd (Some BLOG_ROOT) w = (Exited 0 out, w') ->
    staged_of (beyond w') = node_at w COUNTER_FN
    /\ node_at w' COUNTER_FN = node_at w COUNTER_FN;
  commit_records : forall msg w out w',
    spawn (git_commit_cmd msg) (Some BLOG_ROOT) w = (Exited 0 out, w') ->
    committed_of (beyond w') = staged_of (beyond w)
    /\ node_at w' COUNTER_FN = node_at w COUNTER_FN;
  branch_reads : forall w out w',
    spawn git_branch_cmd (Some BLOG_ROOT) w = (Exited 0 out, w') ->
    committed_of (beyond w') = committed_of (beyond w)
    /\ node_at w' COUNTER_FN = node_at w COUNTER_FN;
  push_sends : forall branch w out w',
    spawn (git_push_cmd branch) (Some BLOG_ROOT) w = (Exited 0 out, w') ->
    committed_of (beyond w') = committed_of (beyond w)
    /\ node_at w' COUNTER_FN = node_at w COUNTER_FN
}.

(** ** More readings of a run *)


(** Each process is started right after its command line was printed, the
    branch query apart.  [prev] is the event just before [t]. *)
Fixpoint announced (prev : option event) (t : list event) : Prop :=
  match t with
  | [] => True
  | e :: t' =>
      match e with
      | Exec argv _ _ =>
          prev = Some (Print (command_line argv)) \/ argv = git_branch_cmd
      | _ => True
      end
      /\ announced (Some e) t'
  end.

(** Where a process is started: in the site root, or nowhere in particular
    for the mirror, whose paths are absolute. *)
Definition started_in_site (e : event) : Prop :=
  match e with
  | Exec argv cwd _ => cwd = Some BLOG_ROOT \/ (argv = rsync_cmd /\ cwd = None)
  | _ => True
  end.

(** The characters an ASCII integer literal is made of. *)
Definition literal_char (c : char) : Prop :=
  Py_ISSPACE c = true \/ c = 43 \/ c = 45 \/ c = 95 \/ 48 <= c <= 57.

(** A pause lasts [PAUSE] seconds and comes right after the mirror, the
    helper or the build has succeeded.  [prev] is the event just before. *)
Fixpoint paced (prev : option event) (t : list event) : Prop :=
  match t with
  | [] => True
  | e :: t' =>
      match e with
      | Sleep s =>
          s = PAUSE
          /\ exists argv cwd out,
               prev = Some (Exec argv cwd (Exited 0 out))
               /\ (argv = rsync_cmd \/ argv = images_cmd \/ argv = hugo_cmd)
      | _ => True
      end
      /\ paced (Some e) t'
  end.

(** The paths the script itself asks about, reads and writes. *)
Definition own_path (e : event) : Prop :=
  match e with
  | IsDir p _ => p = OBS_POSTS \/ p = BLOG_ROOT
  | Exists p _ => p = IMAGES_PY \/ p = COUNTER_FN
  | ReadText p _ => p = COUNTER_FN
  | WriteText p _ => p = COUNTER_FN
  | _ => True
  end.

(** ** Sample worlds

    A small concrete site and tool set, used to run the script on actual
    inputs.  The repository part of the world keeps what the counter path
    held when it was last staged and last committed. *)

Definition no_whitespace : char -> bool := fun _ => false.
Definition no_decimal : char -> Z := fun _ => (-1)%Z.

Record repo : Type := mkRepo {
  staged : node;
  committed : node
}.

Definition argv_eqb (a b : list str) : bool :=
  if list_eq_dec str_eq_dec a b then true else false.

(** Both directories in place, the helper script present, the counter path
    as given. *)
Definition site (counter : node) : world repo :=
  mkWorld
    (fun p =>
       if str_eqb p OBS_POSTS then Dir
       else if str_eqb p BLOG_ROOT then Dir
       else if str_eqb p IMAGES_PY then File (py "import shutil")
       else if str_eqb p COUNTER_FN then counter
       else Absent)
    (mkRepo Absent Absent).

(** Tools whose return codes are given by [verdict]: a failing command
    changes nothing; [git add .] stages the counter path as it is, [git
    commit] records what is staged, [git rev-parse] answers [main]. *)
Definition tools (verdict : list str -> Z)
    (argv : list str) (cwd : option str) (w : world repo) : child * world repo :=
  let rc := verdict argv in
  if negb (rc =? 0)%Z then (Exited rc [], w)
  else if argv_eqb argv git_add_cmd then
    (Exited 0 [], mkWorld (node_at w) (mkRepo (node_at w COUNTER_FN) (committed (beyond w))))
  else if argv_eqb (firstn 3 argv) [py "git"; py "commit"; py "-m"] then
    (Exited 0 [], mkWorld (node_at w) (mkRepo (staged (beyond w)) (staged (beyond w))))
  else if argv_eqb argv git_branch_cmd then (Exited 0 (py "main" ++ [10]), w)
  else (Exited 0 [], w).

Definition all_succeed : list str -> Z := fun _ => 0%Z.
Definition only_fails (cmd : list str) (rc : Z) : list str -> Z :=
  fun argv => if argv_eqb argv cmd then rc else 0%Z.

(** The sample site with the text 41 in the counter file, under tools whose
    return codes are given by [verdict]. *)
Definition sample_run (verdict : list str -> Z) : finished repo :=
  script (tools verdict) no_whitespace no_decimal (site (File (py "41"))).

(** Tools of which the program [name] is missing. *)
Definition without_program (name : str)
    (argv : list str) (cwd : option str) (w : world repo) : child * world repo :=
  if argv_eqb (firstn 1 argv) [name] then (NotStarted, w)
  else tools all_succeed argv cwd w.

(** Tools that succeed, print nothing and change nothing. *)
Definition idle_tools
    (argv : list str) (cwd : option str) (w : world repo) : child * world repo :=
  (Exited 0 [], w).

(** * Properties *)

(** ** Text: [str] and [int] are inverse on integers *)

Section TextFacts.

Variable ws : char -> bool.
Variable dec : char -> Z.

Definition decimal_char (c : char) : Prop := 48 <= c <= 57.

Lemma uint_chars_decimal (d : Decimal.uint) : Forall decimal_char (uint_chars d).
Proof.
  induction d; simpl; constructor; auto; unfold decimal_char; lia.
Qed.

Lemma decimal_char_plain (c : char) :
  decimal_char c ->
  Py_UNICODE_ISSPACE ws c = false /\ to_ascii ws dec c = c /\ (c =? 95) = false
  /\ digit_value c = Some (Z.of_N (c - 48)).
Proof.
  unfold decimal_char, Py_UNICODE_ISSPACE, to_ascii, digit_value. intros [Hlo Hhi].
  assert (H128 : (c <? 128) = true) by (apply N.ltb_lt; lia).
  assert (H127 : (c <? 127) = true) by (apply N.ltb_lt; lia).
  assert (H9 : (c <=? 13) = false) by (apply N.leb_gt; lia).
  assert (H32 : (c <=? 32) = false) by (apply N.leb_gt; lia).
  assert (H48 : (48 <=? c) = true) by (apply N.leb_le; lia).
  assert (H57 : (c <=? 57) = true) by (apply N.leb_le; lia).
  assert (H95 : (c =? 95) = false) by (apply N.eqb_neq; lia).
  rewrite H128, H127, H9, H32, H48, H57, H95, !andb_false_r. auto.
Qed.

Lemma lstrip_head (c : char) (s : str) :
  Py_UNICODE_ISSPACE ws c = false -> lstrip ws (c :: s) = c :: s.
Proof. intros H. simpl. now rewrite H. Qed.

(** Text with no whitespace at all is left alone by [strip]. *)
Lemma strip_solid (s : str) :
  Forall (fun c => Py_UNICODE_ISSPACE ws c = false) s -> strip ws s = s.
Proof.
  intros H. unfold strip, rstrip.
  assert (L : forall t, Forall (fun c => Py_UNICODE_ISSPACE ws c = false) t ->
                        lstrip ws t = t).
  { intros [|c t] Ht; [reflexivity|]. inversion Ht; subst. now apply lstrip_head. }
  rewrite (L s H), (L (rev s)), rev_involutive; auto.
  now apply Forall_rev.
Qed.

Lemma py_str_solid (z : Z) :
  Forall (fun c => Py_UNICODE_ISSPACE ws c = false) (py_str z).
Proof.
  assert (D : forall d, Forall (fun c => Py_UNICODE_ISSPACE ws c = false) (uint_chars d)).
  { intros d. eapply Forall_impl; [|apply uint_chars_decimal].
    intros c Hc. now apply decimal_char_plain. }
  destruct z; simpl; auto.
Qed.

Lemma strip_py_str (z : Z) : strip ws (py_str z) = py_str z.
Proof. apply strip_solid, py_str_solid. Qed.

Lemma py_str_nonempty (z : Z) : py_str z <> [].
Proof.
  destruct z as [|p|p]; simpl; try discriminate.
  pose proof (DecimalPos.Unsigned.to_uint_nonnil p) as H.
  destruct (Pos.to_uint p); simpl; congruence.
Qed.

Lemma to_ascii_uint_chars (d : Decimal.uint) :
  map (to_ascii ws dec) (uint_chars d) = uint_chars d.
Proof.
  induction d; simpl; rewrite ?IHd; reflexivity.
Qed.

Lemma to_ascii_py_str (z : Z) : map (to_ascii ws dec) (py_str z) = py_str z.
Proof.
  destruct z; simpl; rewrite ?to_ascii_uint_chars; reflexivity.
Qed.

(** One turn of the digit loop on a decimal character. *)
Lemma scan_digits_step (prev c : char) (acc : Z) (t : str) :
  decimal_char c ->
  scan_digits prev acc (c :: t) = scan_digits c (10 * acc + Z.of_N (c - 48))%Z t.
Proof.
  intros Hc. destruct (decimal_char_plain c Hc) as (_ & _ & H95 & Hd).
  cbn [scan_digits]. now rewrite H95, Hd.
Qed.

(** The digit loop started with a positive accumulator [p] follows
    [Pos.of_uint_acc]. *)
Lemma scan_digits_acc (d : Decimal.uint) :
  forall (prev : char) (p : positive),
    (prev =? 95) = false ->
    scan_digits prev (Zpos p) (uint_chars d) = Some (Zpos (Pos.of_uint_acc d p), []).
Proof.
  induction d; intros prev p Hprev; cbn [uint_chars Pos.of_uint_acc];
    [ cbn [scan_digits]; now rewrite Hprev | .. ];
    (rewrite scan_digits_step by (unfold decimal_char; lia);
     match goal with
     | |- scan_digits ?c _ _ = Some (Zpos (Pos.of_uint_acc _ ?q), _) =>
         rewrite <- (IHd c q) by reflexivity; f_equal; lia
     end).
Qed.

(** Started at zero it follows [Pos.of_uint]: leading zeros add nothing. *)
Lemma scan_digits_zero (d : Decimal.uint) :
  forall prev : char,
    (prev =? 95) = false ->
    scan_digits prev 0%Z (uint_chars d) = Some (Z.of_N (Pos.of_uint d), []).
Proof.
  induction d; intros prev Hprev; cbn [uint_chars Pos.of_uint];
    [ cbn [scan_digits]; now rewrite Hprev | .. ];
    rewrite scan_digits_step by (unfold decimal_char; lia);
    [ apply IHd; reflexivity
    | match goal with
      | |- scan_digits ?c _ _ = Some (Z.of_N (N.pos (Pos.of_uint_acc _ ?q)), _) =>
          cbn [Z.of_N]; rewrite <- (scan_digits_acc d c q) by reflexivity; f_equal
      end .. ].
Qed.

Lemma PyLong_FromString_digits (p : positive) :
  PyLong_FromString (uint_chars (Pos.to_uint p)) = Some (Zpos p)
  /\ PyLong_FromString (45 :: uint_chars (Pos.to_uint p)) = Some (Zneg p).
Proof.
  pose proof (DecimalPos.Unsigned.of_to p) as Hp.
  pose proof (DecimalPos.Unsigned.to_uint_nonnil p) as Hn.
  pose proof (scan_digits_zero (Pos.to_uint p) 0 eq_refl) as Hs.
  destruct (Pos.to_uint p) eqn:Hd; [congruence | ..];
    unfold PyLong_FromString;
    cbn [uint_chars skip_spaces Py_ISSPACE N.eqb N.leb N.compare Pos.eqb Pos.compare
         Pos.compare_cont orb andb digit_value] in *;
    rewrite Hs, Hp; simpl; auto.
Qed.

(** [int(str(z)) = z], whatever the Unicode tables. *)
Lemma py_int_py_str (z : Z) : py_int ws dec (py_str z) = Some z.
Proof.
  unfold py_int. rewrite to_ascii_py_str.
  destruct z as [|p|p]; [reflexivity | apply PyLong_FromString_digits ..].
Qed.

End TextFacts.

(** ** The script *)

Section Runs.

Context {E : Type}.
Variable spawn : list str -> option str -> world E -> child * world E.
Variable ws : char -> bool.
Variable dec : char -> Z.

Lemma str_eqb_refl (p : str) : str_eqb p p = true.
Proof. unfold str_eqb. destruct (str_eq_dec p p); congruence. Qed.


Lemma node_at_put_file_same (p content : str) (w : world E) :
  node_at (put_file p content w) p = File content.
Proof. cbn. now rewrite str_eqb_refl. Qed.


(** *** Running the script symbolically

    [norm] unfolds the script down to the calls into the world; [step]
    splits on the next answer of the world: how a child process ended,
    whether a path is a directory or exists, what the counter path names,
    what its text strips and parses to.  [run_script] sets the statement
    aside, runs [main] to each of its ends, and puts the statement back. *)

Ltac norm :=
  cbv beta iota zeta delta
    [main next_commit_msg parse_counter run subprocess_run check_output
     subprocess bind ret raise print sleep emit is_dir exists_ read_text write_text
     now trace fst snd negb];
  cbn [app].

Ltac step :=
  match goal with
  | H : node_at ?w ?p = _ |- context [node_at ?w ?p] => rewrite H
  | |- context [spawn ?c ?d ?w] =>
      let r := fresh "r" in
      let w' := fresh "w" in
      let H := fresh "Hrun" in
      let rc := fresh "rc" in
      let out := fresh "out" in
      destruct (spawn c d w) as [r w'] eqn:H; destruct r as [rc out|];
      [destruct (Z.eqb_spec rc 0); [subst rc|] |]
  | |- context [node_at ?w COUNTER_FN] =>
      let H := fresh "Hnode" in destruct (node_at w COUNTER_FN) eqn:H
  | |- context [match node_at ?w ?p with Absent => false | Dir => true | File _ => false end] =>
      let H := fresh "Hdir" in
      destruct (match node_at w p with Dir => true | _ => false end) eqn:H
  | |- context [match node_at ?w ?p with Absent => false | Dir => true | File _ => true end] =>
      let H := fresh "Hexists" in
      destruct (match node_at w p with Absent => false | _ => true end) eqn:H
  | |- context [match strip ?a ?t with _ => _ end] =>
      let H := fresh "Hstrip" in destruct (strip a t) eqn:H
  | |- context [match py_int ?a ?b ?t with _ => _ end] =>
      let H := fresh "Hint" in destruct (py_int a b t) eqn:H
  end; norm.

Ltac run_script :=
  unfold script;
  match goal with
  | |- context [main ?sp ?a ?b ?st] => pattern (main sp a b st)
  end;
  match goal with
  | |- ?Q _ =>
      let q := fresh "q" in
      set (q := Q); norm; repeat step; subst q; cbv beta;
      cbn [exit_status final now trace fst snd app]
  end.

(** Two command lines or paths that differ in a literal word. *)
Ltac argv_differ H :=
  solve [ discriminate H
        | vm_compute in H; discriminate H ].

(** Splits membership in an explicit trace into its cases and drops the
    impossible ones: another kind of event, another command, another path. *)
Ltac in_cases H :=
  simpl In in H;
  repeat match type of H with
         | _ \/ _ => destruct H as [H | H]
         | False => destruct H
         | _ = _ =>
             first [ discriminate H
                   | exfalso; injection H; clear; intros;
                     match goal with Hx : _ = _ |- _ => argv_differ Hx end
                   | injection H as ?; subst ]
         end.

Ltac removelast_witness :=
  match goal with
  | |- exists pre, ?l = pre ++ _ => exists (removelast l); reflexivity
  end.

Lemma command_line_not_failed_line (cmd : list str) (rc : Z) :
  command_line cmd <> failed_line rc.
Proof. unfold command_line, failed_line. cbn [app]. intros H. discriminate H. Qed.

Lemma not_dir_answer (w : world E) (p : str) :
  node_at w p <> Dir <-> match node_at w p with Dir => true | _ => false end = false.
Proof. destruct (node_at w p); split; congruence. Qed.

(** *** The commit counter *)



(** C3: when the text read from the counter file is not blank and [int]
    rejects it, the run ends in an uncaught [ValueError] (exit status 1, a
    traceback, not the handler's failure line); the file was read once,
    nothing was written, and the last command run is the staging one. *)
Theorem C3_counter_parse_failure (w : world E) (text : str) :
  In (ReadText COUNTER_FN text) (trace (final (script spawn ws dec w))) ->
  strip ws text <> [] ->
  py_int ws dec (strip ws text) = None ->
  let r := script spawn ws dec w in
  fst (main spawn ws dec (mkState w [])) = Raise ValueError
  /\ exit_status r = 1%Z
  /\ last_event (trace (final r)) = Some (Traceback ValueError)
  /\ (forall rc, ~ In (Print (failed_line rc)) (trace (final r)))
  /\ reads (trace (final r)) = [(COUNTER_FN, text)]
  /\ writes (trace (final r)) = []
  /\ (exists pre, commands (trace (final r)) = pre ++ [git_add_cmd])
  /\ (forall st : state E, node_at (now st) COUNTER_FN = File text ->
        fst (next_commit_msg ws dec st) = Raise ValueError
        /\ now (snd (next_commit_msg ws dec st)) = now st).
Proof.
  intros Hin Hblank Hparse.
  assert (Hop : forall st : state E, node_at (now st) COUNTER_FN = File text ->
                  fst (next_commit_msg ws dec st) = Raise ValueError
                  /\ now (snd (next_commit_msg ws dec st)) = now st).
  { intros [w0 t0] Hn. cbn [now] in Hn. norm. repeat (rewrite Hn; norm).
    destruct (strip ws text) as [|c s]; [congruence|].
    rewrite Hparse. norm. split; reflexivity. }
  revert Hin. cbv zeta.
  run_script; intros Hin; in_cases Hin; try congruence.
  all: repeat (split; [reflexivity|]).
  all: split; [intros rc H; in_cases H;
               solve [eapply command_line_not_failed_line; eassumption]|].
  all: repeat (split; [reflexivity|]).
  all: split; [removelast_witness | exact Hop].
Qed.

(** C4: when the notes path or the site root is not a directory the run
    stops with exit status 1 and a message naming the path, having started
    no process, written nothing and left the world as it was. *)
Theorem C4_missing_directory (w : world E) :
  node_at w OBS_POSTS <> Dir \/ node_at w BLOG_ROOT <> Dir ->
  let r := script spawn ws dec w in
  exit_status r = 1%Z
  /\ now (final r) = w
  /\ commands (trace (final r)) = []
  /\ forallb (fun e => negb (acts e)) (trace (final r)) = true
  /\ (node_at w OBS_POSTS <> Dir ->
      last_event (trace (final r))
      = Some (Stderr (py "Obsidian posts path not found: " ++ OBS_POSTS)))
  /\ (node_at w OBS_POSTS = Dir ->
      last_event (trace (final r))
      = Some (Stderr (py "Hugo project path not found: " ++ BLOG_ROOT))).
Proof.
  rewrite !not_dir_answer. intros H. cbv zeta. unfold script. norm.
  destruct (match node_at w OBS_POSTS with Dir => true | _ => false end) eqn:Hobs; norm.
  - destruct H as [H | H]; [discriminate H|]. rewrite H. norm.
    cbn [exit_status final now trace].
    repeat (split; [reflexivity|]).
    split; [intros Hx; apply not_dir_answer in Hx; congruence | intros _; reflexivity].
  - cbn [exit_status final now trace].
    repeat (split; [reflexivity|]).
    intros Hd. rewrite Hd in Hobs. discriminate Hobs.
Qed.

(** C8: once both directories are found, the first process started is the
    mirror: [rsync -av --delete SRC/ DST], announced by [run], with no
    working directory; the source argument is the notes path followed by a
    slash, the destination is the site's posts folder with none. *)
Theorem C8_mirror_command (w : world E) :
  node_at w OBS_POSTS = Dir ->
  node_at w BLOG_ROOT = Dir ->
  (exists r rest,
     trace (final (script spawn ws dec w))
     = [IsDir OBS_POSTS true; IsDir BLOG_ROOT true;
        Print (command_line rsync_cmd); Exec rsync_cmd None r] ++ rest)
  /\ rsync_cmd = [py "rsync"; py "-av"; py "--delete"; OBS_POSTS ++ py "/"; DEST_POSTS]
  /\ In 97 (py "-av")
  /\ removelast (nth 3 rsync_cmd []) = OBS_POSTS
  /\ last (nth 3 rsync_cmd []) 0 = 47
  /\ nth 4 rsync_cmd [] = py "/Users/omkakkad/Obsidian/OmBlog/content/posts"
  /\ last (nth 4 rsync_cmd []) 0 <> 47.
Proof.
  intros Hobs Hblog. split.
  - run_script; try (do 2 eexists; reflexivity).
    all: rewrite ?Hobs, ?Hblog in *; discriminate.
  - split; [reflexivity|]. split; [vm_compute; tauto|].
    repeat (split; [reflexivity|]). vm_compute. discriminate.
Qed.


(** C5: when the build command exits non-zero, the only processes of the
    run are the mirror, the helper if present, and the build; nothing is
    staged, committed, asked of git or pushed, the counter is not written,
    and the world is left exactly as those tools made it: the script undoes
    nothing. *)
Theorem C5_build_failure (w : world E) (rc : Z) (out : str) :
  let r := script spawn ws dec w in
  let mirrored := snd (spawn rsync_cmd None w) in
  let processed :=
    match node_at mirrored IMAGES_PY with
    | Absent => mirrored
    | _ => snd (spawn images_cmd (Some BLOG_ROOT) mirrored)
    end in
  In (Exec hugo_cmd (Some BLOG_ROOT) (Exited rc out)) (trace (final r)) ->
  rc <> 0%Z ->
  (commands (trace (final r)) = [rsync_cmd; hugo_cmd]
   \/ commands (trace (final r)) = [rsync_cmd; images_cmd; hugo_cmd])
  /\ writes (trace (final r)) = []
  /\ now (final r) = snd (spawn hugo_cmd (Some BLOG_ROOT) processed)
  /\ last_event (trace (final r)) = Some (Print (failed_line rc)).
Proof.
  cbv zeta. run_script; intros Hin Hrc; in_cases Hin; try congruence.
  all: split; [first [left; reflexivity | right; reflexivity]|].
  all: split; [reflexivity|].
  all: split; [|reflexivity].
  all: repeat match goal with
              | Hr : spawn ?c ?d ?x = _ |- context [spawn ?c ?d ?x] =>
                  rewrite Hr; cbn [snd]
              | |- context [match node_at ?x IMAGES_PY with _ => _ end] =>
                  destruct (node_at x IMAGES_PY); try discriminate
              end;
    reflexivity.
Qed.

(** Rewrites the test of a return code that is known not to be zero. *)
Ltac failed_codes :=
  repeat match goal with
         | Hn : ?rc <> 0%Z |- _ => apply Z.eqb_neq in Hn; try rewrite Hn
         end.

(** C7: a run that succeeds stages everything, commits with the message the
    counter returned, asks git for the branch name, and pushes that branch
    to [origin], in this order and after the build; in every run, a process
    that fails is the last thing the script starts. *)
Theorem C7_publish_order (w : world E) :
  let r := script spawn ws dec w in
  (fst (main spawn ws dec (mkState w [])) = Ok tt ->
   exists pre n out,
     commands (trace (final r))
     = pre ++ [git_add_cmd; git_commit_cmd (commit_message n);
               git_branch_cmd; git_push_cmd (strip ws out)]
     /\ (pre = [rsync_cmd; hugo_cmd] \/ pre = [rsync_cmd; images_cmd; hugo_cmd])
     /\ writes (trace (final r)) = [(COUNTER_FN, py_str n)]
     /\ In (Exec git_branch_cmd (Some BLOG_ROOT) (Exited 0 out)) (trace (final r)))
  /\ fail_fast (trace (final r)) = true.
Proof.
  cbv zeta. run_script; (split; [intros Hok; try discriminate Hok|]).
  all: try (cbn [fail_fast child_ok Z.eqb]; failed_codes; reflexivity).
  all: first
         [ exists [rsync_cmd; hugo_cmd]; do 2 eexists; split; [reflexivity|];
           split; [left; reflexivity|]
         | exists [rsync_cmd; images_cmd; hugo_cmd]; do 2 eexists; split; [reflexivity|];
           split; [right; reflexivity|] ].
  all: split; [reflexivity|]; simpl In; tauto.
Qed.

(** C1: when a child process exits non-zero, the top-level handler catches
    the failure: the run ends with that process as its last command, the
    last thing printed is the failure line carrying its return code, no
    traceback is produced, and the exit status is 0.  When [main] returns,
    the last thing printed is the success line with the commit message and
    the branch that were committed and pushed. *)
Theorem C1_failure_line_and_success_line (w : world E) :
  let r := script spawn ws dec w in
  (forall argv cwd rc out,
     In (Exec argv cwd (Exited rc out)) (trace (final r)) ->
     rc <> 0%Z ->
     exit_status r = 0%Z
     /\ last_event (trace (final r)) = Some (Print (failed_line rc))
     /\ forallb (fun e => negb (is_traceback e)) (trace (final r)) = true
     /\ (exists pre, commands (trace (final r)) = pre ++ [argv]))
  /\ (fst (main spawn ws dec (mkState w [])) = Ok tt ->
      exit_status r = 0%Z
      /\ exists n branch r1 r2,
           last_event (trace (final r))
           = Some (Print (done_line (commit_message n) branch))
           /\ In (Exec (git_commit_cmd (commit_message n)) (Some BLOG_ROOT) r1)
                 (trace (final r))
           /\ In (Exec (git_push_cmd branch) (Some BLOG_ROOT) r2) (trace (final r))).
Proof.
  cbv zeta. run_script; split.
  all: try (intros Hok; first [discriminate Hok | clear Hok]).
  all: try (intros argv cwd rc' out' Hin Hrc; in_cases Hin; try congruence).
  all: try (repeat (split; [reflexivity|]); removelast_witness).
  all: split; [reflexivity|]; do 4 eexists; split; [reflexivity|]; simpl In; tauto.
Qed.

(** *** The counter file across a run *)

Lemma stored_value_py_str (k : Z) : stored_value ws dec (File (py_str k)) = Some k.
Proof.
  unfold stored_value. rewrite (strip_py_str ws dec).
  pose proof (py_str_nonempty k) as Hk.
  destruct (py_str k) eqn:Hs; [congruence|]. rewrite <- Hs. apply py_int_py_str.
Qed.


(** Cuts an explicit trace in two around its event number [n]. *)
Ltac cut_at n :=
  match goal with
  | |- exists t1 t2, ?t = _ /\ _ =>
      exists (firstn n t), (skipn (S n) t); split; [reflexivity|]
  end.

Ltac find_cut n :=
  first [ cut_at n
        | lazymatch n with
          | 40%nat => fail
          | _ => find_cut (S n)
          end ].

(** Follows the counter path through the git commands of a leaf. *)
Ltac follow_git G :=
  repeat match goal with
         | Hr : spawn git_add_cmd _ _ = (Exited 0%Z _, _) |- _ =>
             let Hs := fresh "Hstaged" in
             let Hd := fresh "Hdisk" in
             destruct (add_stages _ _ _ G _ _ _ Hr) as [Hs Hd]; clear Hr
         | Hr : spawn (git_commit_cmd _) _ _ = (Exited 0%Z _, _) |- _ =>
             let Hs := fresh "Hcommitted" in
             let Hd := fresh "Hdisk" in
             destruct (commit_records _ _ _ G _ _ _ _ Hr) as [Hs Hd]; clear Hr
         | Hr : spawn git_branch_cmd _ _ = (Exited 0%Z _, _) |- _ =>
             let Hs := fresh "Hcommitted" in
             let Hd := fresh "Hdisk" in
             destruct (branch_reads _ _ _ G _ _ _ Hr) as [Hs Hd]; clear Hr
         | Hr : spawn (git_push_cmd _) _ _ = (Exited 0%Z _, _) |- _ =>
             let Hs := fresh "Hcommitted" in
             let Hd := fresh "Hdisk" in
             destruct (push_sends _ _ _ G _ _ _ _ Hr) as [Hs Hd]; clear Hr
         end.

(** C9: the counter is written only after [git add .] has run, and before
    any commit; so with a git that commits what was staged, a successful
    run leaves in the commit the counter file as it was before the run,
    which is not the file now on disk: the disk holds the committed value
    plus one (an absent file counting as zero). *)
Theorem C9_counter_ahead_of_commit
    (staged_of committed_of : E -> node) (w : world E) :
  git_records spawn staged_of committed_of ->
  let r := script spawn ws dec w in
  (forall p c,
     In (WriteText p c) (trace (final r)) ->
     exists t1 t2,
       trace (final r) = t1 ++ WriteText p c :: t2
       /\ (exists pre, commands t1 = pre ++ [git_add_cmd])
       /\ (forall msg, ~ In (git_commit_cmd msg) (commands t1))
       /\ writes t1 = [])
  /\ (fst (main spawn ws dec (mkState w [])) = Ok tt ->
      exists n,
        stored_value ws dec (committed_of (beyond (now (final r)))) = Some n
        /\ node_at (now (final r)) COUNTER_FN = File (py_str (n + 1))
        /\ committed_of (beyond (now (final r))) <> node_at (now (final r)) COUNTER_FN).
Proof.
  intros G. cbv zeta. run_script; split.
  all: try (intros Hok; first [discriminate Hok | clear Hok]).
  all: try (intros ? ? Hin; in_cases Hin; fail).
  all: try (intros ? ? Hin; in_cases Hin; find_cut 0%nat;
            split; [removelast_witness|];
            split; [intros msg H; in_cases H | reflexivity]).
  all: follow_git G; cbn [beyond put_file] in *.
  all: rewrite Hnode in Hdisk; rewrite <- Hdisk in Hstaged;
    rewrite Hstaged in Hcommitted; rewrite Hcommitted in Hcommitted0;
    rewrite Hcommitted0 in Hcommitted1;
    rewrite node_at_put_file_same in Hdisk0; rewrite Hdisk0 in Hdisk1;
    rewrite Hdisk1 in Hdisk2; rewrite Hcommitted1, Hdisk2.
  all: match goal with
       | |- exists n, _ /\ File (py_str (?k + 1)) = _ /\ _ => exists k
       end.
  all: assert (Hvalue : forall k text, stored_value ws dec (File text) = Some k ->
                          File text <> File (py_str (k + 1))).
  all: try (intros k text Hk Heq; injection Heq as ->;
            rewrite stored_value_py_str in Hk; injection Hk; lia).
  all: split; [cbn [stored_value]; rewrite ?Hstrip, ?Hint; reflexivity|].
  all: split; [reflexivity|].
  all: try discriminate.
  all: apply Hvalue; cbn [stored_value]; rewrite ?Hstrip, ?Hint; reflexivity.
Qed.





(** ** Further properties of the counter *)

Lemma writes_app (a b : list event) : writes (a ++ b) = writes a ++ writes b.
Proof.
  induction a as [|e a IH]; [reflexivity|].
  destruct e; cbn [app writes]; rewrite IH; reflexivity.
Qed.

(** The outcome of [next_commit_msg] in every case, read off the number the
    counter path stands for. *)
Lemma counter_outcome (st : state E) :
  let r := next_commit_msg ws dec st in
  match stored_value ws dec (node_at (now st) COUNTER_FN) with
  | Some n =>
      fst r = Ok (commit_message (n + 1))
      /\ now (snd r) = put_file COUNTER_FN (py_str (n + 1)) (now st)
      /\ writes (trace (snd r)) = writes (trace st) ++ [(COUNTER_FN, py_str (n + 1))]
  | None =>
      (node_at (now st) COUNTER_FN = Dir /\ fst r = Raise OSError
       \/ (exists text, node_at (now st) COUNTER_FN = File text) /\ fst r = Raise ValueError)
      /\ now (snd r) = now st
      /\ writes (trace (snd r)) = writes (trace st)
  end.
Proof.
  destruct st as [w t0]. cbv zeta. cbn [now trace]. unfold stored_value.
  destruct (node_at w COUNTER_FN) as [| |text] eqn:Hn.
  - norm. repeat (rewrite Hn; norm).
    rewrite <- app_assoc, writes_app. repeat split; reflexivity.
  - norm. repeat (rewrite Hn; norm).
    rewrite writes_app, app_nil_r. split; [left; split; reflexivity|]. split; reflexivity.
  - norm. repeat (rewrite Hn; norm).
    destruct (strip ws text) as [|c s] eqn:Hs; norm.
    + repeat (rewrite Hn; norm).
      rewrite <- !app_assoc, writes_app. repeat split; reflexivity.
    + destruct (py_int ws dec (c :: s)) as [n|] eqn:Hi; norm.
      * repeat (rewrite Hn; norm).
        rewrite <- !app_assoc, writes_app. repeat split; reflexivity.
      * rewrite <- app_assoc, writes_app, app_nil_r.
        split; [right; split; [exists text|]; reflexivity|]. split; reflexivity.
Qed.






(** *** What the counter file may look like *)






(** *** What [int] refuses *)

Lemma skip_spaces_split (s : str) :
  exists l, s = l ++ skip_spaces s /\ Forall (fun c => Py_ISSPACE c = true) l.
Proof.
  induction s as [|c s (l & Hs & Hl)]; [exists []; split; [reflexivity | constructor]|].
  cbn [skip_spaces]. destruct (Py_ISSPACE c) eqn:Hc.
  - exists (c :: l). split; [cbn; congruence | now constructor].
  - exists []. split; [reflexivity | constructor].
Qed.

Lemma digit_value_range (c : char) (d : Z) : digit_value c = Some d -> 48 <= c <= 57.
Proof.
  unfold digit_value.
  destruct (48 <=? c) eqn:Hlo; destruct (c <=? 57) eqn:Hhi; try discriminate.
  intros _. split; [now apply N.leb_le | now apply N.leb_le].
Qed.

(** What the digit loop consumes is digits and underscores. *)
Lemma scan_digits_split (s : str) :
  forall prev acc v rest,
    scan_digits prev acc s = Some (v, rest) ->
    exists pre, s = pre ++ rest /\ Forall (fun c => c = 95 \/ 48 <= c <= 57) pre.
Proof.
  induction s as [|c s IH]; intros prev acc v rest; cbn [scan_digits].
  - destruct (prev =? 95); [discriminate|]. intros H. injection H as _ <-.
    exists []. split; [reflexivity | constructor].
  - destruct (c =? 95) eqn:Hc.
    + destruct (prev =? 95); [discriminate|]. intros H.
      destruct (IH _ _ _ _ H) as (pre & -> & Hpre).
      exists (c :: pre). split; [reflexivity|]. constructor; [|assumption].
      left. now apply N.eqb_eq.
    + destruct (digit_value c) as [d|] eqn:Hd.
      * intros H. destruct (IH _ _ _ _ H) as (pre & -> & Hpre).
        exists (c :: pre). split; [reflexivity|]. constructor; [|assumption].
        right. now apply (digit_value_range c d).
      * destruct (prev =? 95); [discriminate|]. intros H. injection H as _ <-.
        exists []. split; [reflexivity | constructor].
Qed.

(** The sign step of the parser drops a leading plus or minus, or nothing. *)
Lemma sign_cases (s1 : str) :
  let '(_, s2) :=
    match s1 with
    | 43 :: t => (1%Z, t)
    | 45 :: t => ((-1)%Z, t)
    | _ => (1%Z, s1)
    end in
  s1 = s2 \/ s1 = 43 :: s2 \/ s1 = 45 :: s2.
Proof.
  destruct s1 as [|c t]; [left; reflexivity|].
  destruct c as [|p]; [left; reflexivity|].
  repeat (destruct p as [p|p|]; try (left; reflexivity)); auto.
Qed.

(** An accepted literal is made of blanks, a sign, digits and underscores. *)
Lemma PyLong_FromString_chars (s : str) (z : Z) :
  PyLong_FromString s = Some z -> Forall literal_char s.
Proof.
  unfold PyLong_FromString. cbv zeta.
  destruct (skip_spaces_split s) as (l & Hs & Hl).
  pose proof (sign_cases (skip_spaces s)) as Hsign.
  destruct (match skip_spaces s with
            | 43 :: t => (1%Z, t)
            | 45 :: t => ((-1)%Z, t)
            | _ => (1%Z, skip_spaces s)
            end) as [sign s2].
  destruct s2 as [|c s2']; [discriminate|].
  destruct (digit_value c); [|discriminate].
  destruct (scan_digits 0 0 (c :: s2')) as [[v rest]|] eqn:Hscan; [|discriminate].
  destruct (skip_spaces rest) eqn:Hrest; [|discriminate]. intros _.
  destruct (scan_digits_split _ _ _ _ _ Hscan) as (pre & Hpre & Hdig).
  destruct (skip_spaces_split rest) as (r & Hr & Hrs). rewrite Hrest, app_nil_r in Hr.
  assert (Hbody : Forall literal_char (c :: s2')).
  { rewrite Hpre. apply Forall_app. split.
    - eapply Forall_impl; [|exact Hdig]. unfold literal_char. intuition.
    - subst r. eapply Forall_impl; [|exact Hrs]. unfold literal_char. intuition. }
  rewrite Hs. apply Forall_app. split.
  - eapply Forall_impl; [|exact Hl]. unfold literal_char. intuition.
  - destruct Hsign as [-> | [-> | ->]]; [assumption | constructor; [|assumption] ..];
      unfold literal_char; intuition.
Qed.

Lemma In_lstrip (c : char) (s : str) :
  In c s -> Py_UNICODE_ISSPACE ws c = false -> In c (lstrip ws s).
Proof.
  intros Hin Hc. induction s as [|a s IH]; [contradiction|].
  cbn [lstrip]. destruct (Py_UNICODE_ISSPACE ws a) eqn:Ha; [|assumption].
  destruct Hin as [-> | Hin]; [congruence | auto].
Qed.

Lemma In_strip (c : char) (s : str) :
  In c s -> Py_UNICODE_ISSPACE ws c = false -> In c (strip ws s).
Proof.
  intros Hin Hc. unfold strip, rstrip.
  rewrite <- in_rev. apply In_lstrip; [|assumption].
  rewrite <- in_rev. now apply In_lstrip.
Qed.

(** X5: one ASCII character in the counter file that is neither whitespace
    nor part of a number (a letter, a dot, a comma) is enough for
    [next_commit_msg] to fail with [ValueError], writing nothing. *)
Theorem X5_counter_foreign_character (st : state E) (text : str) (c : char) :
  node_at (now st) COUNTER_FN = File text ->
  In c text ->
  c < 127 ->
  Py_UNICODE_ISSPACE ws c = false ->
  ~ literal_char c ->
  fst (next_commit_msg ws dec st) = Raise ValueError
  /\ now (snd (next_commit_msg ws dec st)) = now st
  /\ writes (trace (snd (next_commit_msg ws dec st))) = writes (trace st).
Proof.
  intros Hn Hin Hc Hsp Hlit.
  pose proof (counter_outcome st) as H. cbv zeta in H.
  assert (Hv : stored_value ws dec (File text) = None).
  { unfold stored_value. pose proof (In_strip c text Hin Hsp) as Hs.
    destruct (strip ws text) as [|a s] eqn:Hst; [contradiction|].
    destruct (py_int ws dec (a :: s)) as [z|] eqn:Hz; [|reflexivity].
    exfalso. apply Hlit. unfold py_int in Hz.
    apply PyLong_FromString_chars in Hz.
    rewrite Forall_forall in Hz. 
    replace c with (to_ascii ws dec c)
      by (unfold to_ascii; apply N.ltb_lt in Hc; now rewrite Hc).
    apply Hz. now apply in_map. }
  rewrite Hn, Hv in H. destruct H as ([[Hd _] | [_ Hr]] & Hw & Ht); [congruence|].
  repeat split; assumption.
Qed.

(** ** Further properties of a run *)

(** X6: when a program cannot be started at all, the handler does not
    catch the error: the run ends with a traceback and exit status 1, that
    program is the last one tried, and no failure line is printed. *)
Theorem X6_program_not_started (w : world E) (argv : list str) (cwd : option str) :
  let r := script spawn ws dec w in
  In (Exec argv cwd NotStarted) (trace (final r)) ->
  fst (main spawn ws dec (mkState w [])) = Raise OSError
  /\ exit_status r = 1%Z
  /\ last_event (trace (final r)) = Some (Traceback OSError)
  /\ (exists pre, commands (trace (final r)) = pre ++ [argv])
  /\ (forall rc, ~ In (Print (failed_line rc)) (trace (final r))).
Proof.
  cbv zeta. run_script; intros Hin; in_cases Hin.
  all: repeat (split; [reflexivity|]).
  all: split; [removelast_witness|].
  all: intros rc' H; in_cases H;
    solve [eapply command_line_not_failed_line; eassumption].
Qed.

(** X7: whatever happens, the processes of a run are the first few of one
    fixed sequence: mirror, helper (if present), build, stage, commit,
    branch query, push. *)
Theorem X7_commands_form_a_prefix (w : world E) :
  exists n out rest,
    let publish :=
      [hugo_cmd; git_add_cmd; git_commit_cmd (commit_message n);
       git_branch_cmd; git_push_cmd (strip ws out)] in
    commands (trace (final (script spawn ws dec w))) ++ rest = rsync_cmd :: publish
    \/ commands (trace (final (script spawn ws dec w))) ++ rest
       = rsync_cmd :: images_cmd :: publish.
Proof.
  run_script.
  all: first
         [ exists 0%Z, []; eexists; cbv zeta; cbn [commands app];
           first [left; reflexivity | right; reflexivity]
         | eexists; exists []; eexists; cbv zeta; cbn [commands app];
           first [left; reflexivity | right; reflexivity]
         | do 3 eexists; cbv zeta; cbn [commands app];
           first [left; reflexivity | right; reflexivity] ].
Qed.

(** For every process of a leaf, what it left at the counter path when it
    leaves that path alone. *)
Ltac counter_through Hkeep :=
  repeat match goal with
         | Hr : spawn ?c ?d ?x = (_, ?y) |- _ =>
             let K := fresh "Kept" in
             pose proof (Hkeep c d x) as K; rewrite Hr in K; cbn [snd] in K;
             clear Hr
         end.

Ltac counter_back :=
  repeat match goal with
         | K : node_at ?y COUNTER_FN = node_at ?x COUNTER_FN
           |- context [node_at ?y COUNTER_FN] => rewrite K
         end;
  rewrite ?node_at_put_file_same.

Ltac counter_forth :=
  repeat match goal with
         | K : node_at ?y COUNTER_FN = node_at ?x COUNTER_FN
           |- context [node_at ?x COUNTER_FN] => rewrite <- K
         end.

(** X8: if the tools leave the counter file alone, a run either writes
    nothing and leaves the file as it found it, or writes once, and the
    file then holds the number it stood for before the run plus one. *)
Theorem X8_counter_moves_by_one (w : world E) :
  (forall argv, leaves_counter spawn argv) ->
  let r := script spawn ws dec w in
  writes (trace (final r)) = []
  /\ node_at (now (final r)) COUNTER_FN = node_at w COUNTER_FN
  \/ exists n,
       stored_value ws dec (node_at w COUNTER_FN) = Some n
       /\ writes (trace (final r)) = [(COUNTER_FN, py_str (n + 1))]
       /\ node_at (now (final r)) COUNTER_FN = File (py_str (n + 1)).
Proof.
  intros Hkeep. cbv zeta. run_script; counter_through Hkeep.
  all: first
         [ left; split; [reflexivity|]; counter_back; reflexivity
         | right; eexists; split;
           [ counter_forth; rewrite Hnode; cbn [stored_value];
             rewrite ?Hstrip, ?Hint; reflexivity
           | split; [reflexivity | counter_back; reflexivity] ] ].
Qed.

(** X9: every process is started right after its command line was printed,
    except the branch query, which is silent; and every process is started
    in the site root, except the mirror, which has no working directory. *)
Theorem X9_announced_and_placed (w : world E) :
  announced None (trace (final (script spawn ws dec w)))
  /\ Forall started_in_site (trace (final (script spawn ws dec w))).
Proof.
  run_script; split.
  all: try (cbn [announced]; repeat split;
            first [exact I | left; reflexivity | right; reflexivity]).
  all: repeat (apply Forall_cons || apply Forall_nil); cbn [started_in_site];
    first [exact I | left; reflexivity | right; split; reflexivity].
Qed.

(** *** The branch name *)

Lemma lstrip_split (s : str) :
  exists l, s = l ++ lstrip ws s /\ Forall (fun c => Py_UNICODE_ISSPACE ws c = true) l.
Proof.
  induction s as [|c s (l & Hs & Hl)]; [exists []; split; [reflexivity | constructor]|].
  cbn [lstrip]. destruct (Py_UNICODE_ISSPACE ws c) eqn:Hc.
  - exists (c :: l). split; [cbn; congruence | now constructor].
  - exists []. split; [reflexivity | constructor].
Qed.

Lemma lstrip_first (s t : str) (c : char) :
  lstrip ws s = c :: t -> Py_UNICODE_ISSPACE ws c = false.
Proof.
  induction s as [|a s IH]; cbn [lstrip]; [discriminate|].
  destruct (Py_UNICODE_ISSPACE ws a) eqn:Ha; [exact IH|].
  intros H. injection H as <- _. exact Ha.
Qed.

(** What [strip] returns neither begins nor ends with whitespace. *)
Lemma strip_edges (s t : str) (c : char) :
  strip ws s = c :: t ->
  Py_UNICODE_ISSPACE ws c = false /\ Py_UNICODE_ISSPACE ws (last (c :: t) c) = false.
Proof.
  unfold strip, rstrip. intros H.
  destruct (lstrip_split (rev (lstrip ws s))) as (l & Hl & Hsp).
  assert (Hx : lstrip ws s = (c :: t) ++ rev l).
  { rewrite <- H, <- rev_app_distr, <- Hl, rev_involutive. reflexivity. }
  split; [exact (lstrip_first _ _ _ Hx)|].
  assert (Hr : lstrip ws (rev (lstrip ws s)) = rev (c :: t)).
  { rewrite <- H, rev_involutive. reflexivity. }
  destruct (rev (c :: t)) as [|a u] eqn:Hrev.
  - cbn [rev] in Hrev. symmetry in Hrev. now apply app_cons_not_nil in Hrev.
  - assert (Hlast : last (c :: t) c = a).
    { rewrite <- (rev_involutive (c :: t)), Hrev. cbn [rev]. apply last_last. }
    rewrite Hlast. exact (lstrip_first _ _ _ Hr).
Qed.

(** X10: the branch handed to [git push] is what the branch query printed
    with the whitespace at both ends removed: it never begins or ends with
    a whitespace character (it may be empty). *)
Theorem X10_branch_is_stripped (w : world E) (b : str) (cwd : option str) (r0 : child) :
  In (Exec (git_push_cmd b) cwd r0) (trace (final (script spawn ws dec w))) ->
  (exists out,
     In (Exec git_branch_cmd (Some BLOG_ROOT) (Exited 0 out))
        (trace (final (script spawn ws dec w)))
     /\ b = strip ws out)
  /\ match b with
     | [] => True
     | c :: t =>
         Py_UNICODE_ISSPACE ws c = false
         /\ Py_UNICODE_ISSPACE ws (last b c) = false
     end.
Proof.
  run_script; intros Hin; in_cases Hin.
  all: split; [eexists; split; [simpl In; tauto | reflexivity]|].
  all: match goal with
       | |- match strip ws ?o with _ => _ end =>
           let Hb := fresh "Hb" in
           destruct (strip ws o) eqn:Hb; [exact I | exact (strip_edges _ _ _ Hb)]
       end.
Qed.

(** *** How a run ends, and what it touches *)

(** X11: a run ends in exactly one of four ways: [main] returns and the
    success line is printed (exit status 0); a process exited non-zero and
    the failure line with its code is printed (exit status 0 as well); a
    path check failed and its message goes to standard error before any
    process was started (exit status 1); or an [OSError] or [ValueError]
    escapes with a traceback (exit status 1). *)
Theorem X11_how_a_run_ends (w : world E) :
  let r := script spawn ws dec w in
  let m := fst (main spawn ws dec (mkState w [])) in
  (m = Ok tt /\ exit_status r = 0%Z
   /\ exists msg branch, last_event (trace (final r)) = Some (Print (done_line msg branch)))
  \/ (exists rc, m = Raise (CalledProcessError rc) /\ rc <> 0%Z /\ exit_status r = 0%Z
                 /\ last_event (trace (final r)) = Some (Print (failed_line rc)))
  \/ (exists msg, m = Raise (SystemExit msg) /\ exit_status r = 1%Z
                  /\ last_event (trace (final r)) = Some (Stderr msg)
                  /\ commands (trace (final r)) = [])
  \/ (exists e, (e = OSError \/ e = ValueError) /\ m = Raise e /\ exit_status r = 1%Z
                /\ last_event (trace (final r)) = Some (Traceback e)).
Proof.
  cbv zeta. run_script.
  all: first
         [ left; repeat (split; [reflexivity|]); do 2 eexists; reflexivity
         | right; left; eexists; split; [reflexivity|]; split; [assumption|];
           split; reflexivity
         | right; right; left; eexists; repeat (split; [reflexivity|]); reflexivity
         | right; right; right; exists OSError; split; [left; reflexivity|];
           repeat (split; [reflexivity|]); reflexivity
         | right; right; right; exists ValueError; split; [right; reflexivity|];
           repeat (split; [reflexivity|]); reflexivity ].
Qed.

(** X12: the script pauses only right after the mirror, the helper or the
    build has succeeded, each time for [PAUSE] seconds: never after a
    failure and never between the git commands. *)
Theorem X12_pauses (w : world E) :
  paced None (trace (final (script spawn ws dec w))).
Proof.
  run_script; cbn [paced].
  all: repeat match goal with
              | |- _ /\ _ => split
              | |- True => exact I
              | |- _ = _ => reflexivity
              | |- exists _, _ =>
                  do 3 eexists; split; [reflexivity|];
                  first [ left; reflexivity
                        | right; left; reflexivity
                        | right; right; reflexivity ]
              end.
Qed.

(** X13: the script itself asks only whether the two configured
    directories are directories and whether the helper script and the
    counter file exist, and it reads and writes no file but the counter
    file, each at most once. *)
Theorem X13_own_paths (w : world E) :
  let t := trace (final (script spawn ws dec w)) in
  Forall own_path t
  /\ (List.length (reads t) <= 1)%nat
  /\ (List.length (writes t) <= 1)%nat.
Proof.
  cbv zeta. run_script; split.
  all: try (split; cbn [reads writes List.length]; lia).
  all: repeat (apply Forall_cons || apply Forall_nil); cbn [own_path];
    first [exact I | reflexivity | left; reflexivity | right; reflexivity].
Qed.

(** X14: with tools that change nothing, the world after a run is the world
    before it, except that the counter file may hold the decimal text of a
    number: the script changes nothing else itself. *)
Theorem X14_only_the_counter_changes (w : world E) :
  (forall argv cwd x, snd (spawn argv cwd x) = x) ->
  let r := script spawn ws dec w in
  now (final r) = w
  \/ exists n, now (final r) = put_file COUNTER_FN (py_str n) w.
Proof.
  intros Hinert. cbv zeta. run_script.
  all: repeat match goal with
              | Hr : spawn ?c ?d ?x = (_, ?y) |- _ =>
                  let K := fresh "K" in
                  pose proof (Hinert c d x) as K; rewrite Hr in K; cbn [snd] in K;
                  clear Hr; try subst y
              end.
  all: first [left; reflexivity | right; eexists; reflexivity].
Qed.
End Runs.

(** * The script on sample worlds *)

(** Finds an event in a computed trace. *)
Ltac in_trace := vm_compute; repeat (first [left; reflexivity | right]).

(** C1, as stated, fails: the mirror command exits with code 23, and the
    exit status of the run is 0. *)
Lemma C1_exit_status_counterexample :
  let r := sample_run (only_fails rsync_cmd 23) in
  In (Exec rsync_cmd None (Exited 23 [])) (trace (final r))
  /\ 23%Z <> 0%Z
  /\ ~ (exit_status r <> 0%Z).
Proof.
  cbv zeta. split; [in_trace|]. split; [discriminate|].
  intros H. apply H. reflexivity.
Qed.

(** A failing build is reported with its code; a clean run ends with the
    success line for message 42 on branch main. *)
Lemma C1_witness :
  last_event (trace (final (sample_run (only_fails hugo_cmd 255))))
  = Some (Print (failed_line 255))
  /\ last_event (trace (final (sample_run all_succeed)))
     = Some (Print (done_line (py "Post update 42") (py "main"))).
Proof.
  split.
  - destruct (C1_failure_line_and_success_line
                (tools (only_fails hugo_cmd 255)) no_whitespace no_decimal
                (site (File (py "41")))) as [Hfail _].
    destruct (Hfail hugo_cmd (Some BLOG_ROOT) 255%Z []) as (_ & Hlast & _).
    + in_trace.
    + discriminate.
    + exact Hlast.
  - destruct (C1_failure_line_and_success_line
                (tools all_succeed) no_whitespace no_decimal
                (site (File (py "41")))) as [_ Hdone].
    destruct Hdone as (_ & n & branch & r1 & r2 & Hlast & _).
    + reflexivity.
    + reflexivity.
Defined.


(** The text 4x in the counter file stops the run with a traceback. *)
Lemma C3_witness :
  let r := script (tools all_succeed) no_whitespace no_decimal (site (File (py "4x"))) in
  exit_status r = 1%Z
  /\ last_event (trace (final r)) = Some (Traceback ValueError)
  /\ writes (trace (final r)) = [].
Proof.
  destruct (C3_counter_parse_failure (tools all_succeed) no_whitespace no_decimal
              (site (File (py "4x"))) (py "4x")) as (_ & Hexit & Hlast & _ & _ & Hw & _).
  - in_trace.
  - discriminate.
  - reflexivity.
  - split; [exact Hexit|]. split; [exact Hlast | exact Hw].
Defined.

(** On an empty disk the run stops at the first check. *)
Lemma C4_witness :
  let r := script (tools all_succeed) no_whitespace no_decimal
             (mkWorld (fun _ => Absent) (mkRepo Absent Absent)) in
  exit_status r = 1%Z /\ commands (trace (final r)) = [].
Proof.
  destruct (C4_missing_directory (tools all_succeed) no_whitespace no_decimal
              (mkWorld (fun _ => Absent) (mkRepo Absent Absent)))
    as (Hexit & _ & Hcmd & _).
  - left. discriminate.
  - split; [exact Hexit | exact Hcmd].
Defined.

(** A failing build after mirror and helper: nothing written, the counter
    file untouched. *)
Lemma C5_witness :
  let r := sample_run (only_fails hugo_cmd 255) in
  commands (trace (final r)) = [rsync_cmd; images_cmd; hugo_cmd]
  /\ writes (trace (final r)) = []
  /\ node_at (now (final r)) COUNTER_FN = File (py "41").
Proof.
  destruct (C5_build_failure (tools (only_fails hugo_cmd 255)) no_whitespace no_decimal
              (site (File (py "41"))) 255 []) as (_ & Hw & _).
  - in_trace.
  - discriminate.
  - split; [reflexivity|]. split; [exact Hw | reflexivity].
Defined.


(** The four git commands of a clean run. *)
Lemma C7_witness :
  exists pre n out,
    commands (trace (final (sample_run all_succeed)))
    = pre ++ [git_add_cmd; git_commit_cmd (commit_message n);
              git_branch_cmd; git_push_cmd (strip no_whitespace out)]
    /\ writes (trace (final (sample_run all_succeed))) = [(COUNTER_FN, py_str n)].
Proof.
  destruct (C7_publish_order (tools all_succeed) no_whitespace no_decimal
              (site (File (py "41")))) as [Hok _].
  destruct Hok as (pre & n & out & Hcmd & _ & Hw & _).
  - reflexivity.
  - exists pre, n, out. split; [exact Hcmd | exact Hw].
Defined.

(** The sample run starts with the mirror command. *)
Lemma C8_witness :
  exists r rest,
    trace (final (sample_run all_succeed))
    = [IsDir OBS_POSTS true; IsDir BLOG_ROOT true;
       Print (command_line rsync_cmd); Exec rsync_cmd None r] ++ rest.
Proof.
  apply (C8_mirror_command (tools all_succeed) no_whitespace no_decimal
           (site (File (py "41")))); reflexivity.
Defined.

(** The sample tools are a git in the sense of [git_records]. *)
Lemma tools_git_records (verdict : list str -> Z) :
  git_records (tools verdict) staged committed.
Proof.
  split; unfold tools.
  - intros w out w'. destruct (negb (verdict git_add_cmd =? 0)%Z) eqn:Hv.
    + intros H. injection H as H _ _. rewrite H in Hv. discriminate Hv.
    + change (argv_eqb git_add_cmd git_add_cmd) with true. cbv iota.
      intros H. injection H as _ <-. split; reflexivity.
  - intros msg w out w'. destruct (negb (verdict (git_commit_cmd msg) =? 0)%Z) eqn:Hv.
    + intros H. injection H as H _ _. rewrite H in Hv. discriminate Hv.
    + replace (argv_eqb (git_commit_cmd msg) git_add_cmd) with false
        by (symmetry; unfold argv_eqb;
            destruct (list_eq_dec str_eq_dec (git_commit_cmd msg) git_add_cmd) as [H|H];
            [vm_compute in H; discriminate H | reflexivity]).
      change (argv_eqb (firstn 3 (git_commit_cmd msg)) [py "git"; py "commit"; py "-m"])
        with true. cbv iota.
      intros H. injection H as _ <-. split; reflexivity.
  - intros w out w'. destruct (negb (verdict git_branch_cmd =? 0)%Z) eqn:Hv.
    + intros H. injection H as H _ _. rewrite H in Hv. discriminate Hv.
    + change (argv_eqb git_branch_cmd git_add_cmd) with false.
      change (argv_eqb (firstn 3 git_branch_cmd) [py "git"; py "commit"; py "-m"])
        with false.
      change (argv_eqb git_branch_cmd git_branch_cmd) with true. cbv iota.
      intros H. injection H as _ <-. split; reflexivity.
  - intros branch w out w'. destruct (negb (verdict (git_push_cmd branch) =? 0)%Z) eqn:Hv.
    + intros H. injection H as H _ _. rewrite H in Hv. discriminate Hv.
    + repeat match goal with
             | |- context [argv_eqb ?a ?b] =>
                 replace (argv_eqb a b) with false
                   by (symmetry; unfold argv_eqb;
                       destruct (list_eq_dec str_eq_dec a b) as [H|H];
                       [vm_compute in H; discriminate H | reflexivity])
             end.
      cbv iota. intros H. injection H as _ <-. split; reflexivity.
Qed.

(** The sample tools never touch the counter file themselves. *)
Lemma tools_leave_counter (verdict : list str -> Z) (argv : list str) :
  leaves_counter (tools verdict) argv.
Proof.
  intros cwd w. unfold tools.
  repeat match goal with
         | |- context [if ?b then _ else _] => destruct b
         end; reflexivity.
Qed.

(** After a clean sample run the commit holds 41 and the disk 42. *)
Lemma C9_witness :
  let r := sample_run all_succeed in
  exists n,
    stored_value no_whitespace no_decimal (committed (beyond (now (final r)))) = Some n
    /\ node_at (now (final r)) COUNTER_FN = File (py_str (n + 1))
    /\ committed (beyond (now (final r))) <> node_at (now (final r)) COUNTER_FN.
Proof.
  destruct (C9_counter_ahead_of_commit (tools all_succeed) no_whitespace no_decimal
              staged committed (site (File (py "41")))) as [_ Hok].
  - apply tools_git_records.
  - apply Hok. reflexivity.
Defined.


(** * Further properties on sample worlds *)




(** The dot in 4.2 makes the call fail. *)
Lemma X5_witness :
  fst (next_commit_msg no_whitespace no_decimal (mkState (site (File (py "4.2"))) []))
  = Raise ValueError.
Proof.
  destruct (X5_counter_foreign_character no_whitespace no_decimal
              (mkState (site (File (py "4.2"))) []) (py "4.2") 46) as (Hmsg & _).
  - reflexivity.
  - right. left. reflexivity.
  - reflexivity.
  - reflexivity.
  - unfold literal_char. intros [H | [H | [H | [H | [H _]]]]];
      first [discriminate H | apply H; reflexivity].
  - exact Hmsg.
Defined.

(** With no hugo installed the run ends in a traceback. *)
Lemma X6_witness :
  let r := script (without_program (py "hugo")) no_whitespace no_decimal
             (site (File (py "41"))) in
  exit_status r = 1%Z
  /\ last_event (trace (final r)) = Some (Traceback OSError).
Proof.
  destruct (X6_program_not_started (without_program (py "hugo"))
              no_whitespace no_decimal (site (File (py "41")))
              hugo_cmd (Some BLOG_ROOT)) as (_ & Hexit & Hlast & _).
  - in_trace.
  - split; [exact Hexit | exact Hlast].
Defined.

(** A clean sample run takes the counter file from 41 to 42. *)
Lemma X8_witness :
  let r := sample_run all_succeed in
  writes (trace (final r)) = []
  /\ node_at (now (final r)) COUNTER_FN = node_at (site (File (py "41"))) COUNTER_FN
  \/ exists n,
       stored_value no_whitespace no_decimal (node_at (site (File (py "41"))) COUNTER_FN)
       = Some n
       /\ writes (trace (final r)) = [(COUNTER_FN, py_str (n + 1))]
       /\ node_at (now (final r)) COUNTER_FN = File (py_str (n + 1)).
Proof.
  apply (X8_counter_moves_by_one (tools all_succeed) no_whitespace no_decimal
           (site (File (py "41")))).
  intros argv. apply tools_leave_counter.
Defined.

(** The sample branch query prints main and a newline; main is pushed. *)
Lemma X10_witness :
  exists out,
    In (Exec git_branch_cmd (Some BLOG_ROOT) (Exited 0 out))
       (trace (final (sample_run all_succeed)))
    /\ py "main" = strip no_whitespace out.
Proof.
  destruct (X10_branch_is_stripped (tools all_succeed) no_whitespace no_decimal
              (site (File (py "41"))) (py "main") (Some BLOG_ROOT) (Exited 0 []))
    as [Hout _].
  - in_trace.
  - exact Hout.
Defined.

(** Under idle tools only the counter file of the sample site changes. *)
Lemma X14_witness :
  let r := script idle_tools no_whitespace no_decimal (site (File (py "41"))) in
  now (final r) = site (File (py "41"))
  \/ exists n, now (final r) = put_file COUNTER_FN (py_str n) (site (File (py "41"))).
Proof.
  apply (X14_only_the_counter_changes idle_tools no_whitespace no_decimal
           (site (File (py "41")))).
  reflexivity.
Defined.

